(** * datafusion (Python binding): the [column] and [literal] constructors

    A shallow embedding of [python/datafusion/__init__.py].  The module
    re-exports three engine types and defines two functions:

<<
    def column(value):
        return Expression.column(value)

    def literal(value):
        if not isinstance(value, pa.Scalar):
            value = pa.scalar(value)
        return Expression.literal(value)
>>

    Both functions only call out: to [pa.scalar] (pyarrow) and to the static
    methods [Expression.column] and [Expression.literal] of the compiled
    extension module [datafusion._internal].  None of the three callees is
    defined in the Python source, so the embedding takes them as the fields
    of an [Engine] interface and threads the engine's state and the raised
    exceptions through every call. *)

From Stdlib Require Import ZArith String List.
From Stdlib.Floats Require Import SpecFloat.
From stdpp Require Import base decidable option list strings.

Local Open Scope string_scope.
Local Open Scope list_scope.

(** ** Python values *)

(** A class, as far as [isinstance] is concerned: its qualified name and
    the qualified names of its proper ancestors, in method-resolution
    order. *)
Record PyClass : Type := {
  cls_name : string;
  cls_bases : list string
}.

Definition mro (c : PyClass) : list string := cls_name c :: cls_bases c.

(** The data types an Arrow scalar can be tagged with (a selection of
    pyarrow's, enough for every scalar the development builds). *)
Inductive DataType : Type :=
| null | bool_ | int8 | int16 | int32 | int64
| uint8 | uint16 | uint32 | uint64
| float32 | float64 | utf8 | binary.

(** The values the two functions can be handed.  Immutable data is
    modelled by value.  [PyObject cls iface] is an instance of class [cls];
    [iface] is what the object answers to the two members of the typed
    scalar interface, [.type] and [.as_py()], when it has them.
    [PyExpr addr] is a handle to an engine-owned [Expression] object: two
    handles are the same object exactly when their addresses agree. *)
#[warnings="-register-all"]
Inductive Value : Type :=
| PyNone
| PyBool (b : bool)
| PyInt (n : Z)
| PyFloat (x : spec_float)
| PyStr (s : string)
| PyObject (cls : PyClass) (iface : option (DataType * Value))
| PyExpr (addr : nat).

Definition class_object : string := "object".

Definition NoneType : PyClass := {| cls_name := "NoneType"; cls_bases := [class_object] |}.
Definition class_int : PyClass := {| cls_name := "int"; cls_bases := [class_object] |}.
Definition class_bool : PyClass := {| cls_name := "bool"; cls_bases := ["int"; class_object] |}.
Definition class_float : PyClass := {| cls_name := "float"; cls_bases := [class_object] |}.
Definition class_str : PyClass := {| cls_name := "str"; cls_bases := [class_object] |}.
Definition class_Expression : PyClass :=
  {| cls_name := "datafusion._internal.Expression"; cls_bases := [class_object] |}.

(** [type(value)] *)
Definition type_of (value : Value) : PyClass :=
  match value with
  | PyNone => NoneType
  | PyBool _ => class_bool
  | PyInt _ => class_int
  | PyFloat _ => class_float
  | PyStr _ => class_str
  | PyObject cls _ => cls
  | PyExpr _ => class_Expression
  end.

(** [isinstance(value, cls)]: the class named [cls] occurs in the
    method-resolution order of the value's class. *)
Definition isinstance (value : Value) (cls : string) : bool :=
  bool_decide (cls ∈ mro (type_of value)).

(** [pa.Scalar], the base class of every pyarrow scalar. *)
Definition pa_Scalar : string := "pyarrow.lib.Scalar".

(** The typed scalar interface: the tag and the payload an object exposes. *)
Definition type_tag (value : Value) : option DataType :=
  match value with
  | PyObject _ (Some (ty, _)) => Some ty
  | _ => None
  end.

Definition payload (value : Value) : option Value :=
  match value with
  | PyObject _ (Some (_, p)) => Some p
  | _ => None
  end.

(** A value has the typed scalar capability when it exposes both. *)
Definition scalar_capability (value : Value) : bool :=
  match value with
  | PyObject _ (Some _) => true
  | _ => false
  end.

(** ** Exceptions, outcomes and the calls that leave the module *)

Inductive PyExn : Type :=
| UnsupportedValueType
| EngineFailure (kind : string).

Inductive Outcome (A : Type) : Type :=
| Returned (a : A)
| Raised (e : PyExn).
Arguments Returned {A} a.
Arguments Raised {A} e.

Definition raised {A : Type} (o : Outcome A) : bool :=
  match o with
  | Returned _ => false
  | Raised _ => true
  end.

(** One entry per call made to a collaborator, with its argument. *)
Inductive Call : Type :=
| call_pa_scalar (arg : Value)
| call_Expression_literal (arg : Value)
| call_Expression_column (arg : Value).

(** The three callees.  Each may read and change the engine's state [St]
    and either returns a value or raises. *)
Class Engine (St : Type) : Type := {
  pa_scalar : Value -> St -> Outcome Value * St;
  Expression_literal : Value -> St -> Outcome Value * St;
  Expression_column : Value -> St -> Outcome Value * St
}.

(** What a run of the module's code can observe and change: the engine's
    state, and the log of the calls made so far. *)
Record World (St : Type) : Type := {
  engine_state : St;
  calls : list Call
}.
Arguments engine_state {St} w.
Arguments calls {St} w.

(** ** The monad of Python code: state and exceptions *)

Definition Py (St A : Type) : Type := World St -> Outcome A * World St.

Definition ret {St A : Type} (a : A) : Py St A :=
  fun w => (Returned a, w).

(** No [try] occurs in the module: an exception ends the run and reaches
    the caller as it is. *)
Definition bind {St A B : Type} (m : Py St A) (k : A -> Py St B) : Py St B :=
  fun w =>
    match m w with
    | (Returned a, w') => k a w'
    | (Raised e, w') => (Raised e, w')
    end.

Notation "x <- m ;; k" := (bind m (fun x => k))
  (at level 100, m at next level, right associativity).

(** A call to a collaborator: log it, then run it on the engine's state. *)
Definition invoke {St : Type} (tag : Value -> Call)
    (f : Value -> St -> Outcome Value * St) (arg : Value) : Py St Value :=
  fun w =>
    let (r, st') := f arg (engine_state w) in
    (r, {| engine_state := st'; calls := calls w ++ [tag arg] |}).

(** ** The module's two functions *)

Section Shim.
Context {St : Type} `{Engine St}.

Definition column (value : Value) : Py St Value :=
  invoke call_Expression_column Expression_column value.

Definition literal (value : Value) : Py St Value :=
  value <- (if negb (isinstance value pa_Scalar)
            then invoke call_pa_scalar pa_scalar value
            else ret value) ;;
  invoke call_Expression_literal Expression_literal value.

End Shim.

(** ** The collaborators, as the specification describes them

    The specification's data model: a Typed Scalar is a tag with a payload,
    and an Expression Leaf wraps either a Typed Scalar (a literal) or a name
    (a column reference).  The engine owns the leaves; a call that builds
    one allocates it at a fresh address and returns a handle to it. *)

Inductive Leaf : Type :=
| LiteralLeaf (scalar : Value)
| ColumnLeaf (name : string).

(** The engine's store: the leaf at address [a] is the [a]-th entry. *)
Definition Store : Type := list Leaf.

Definition alloc (leaf : Leaf) (st : Store) : Outcome Value * Store :=
  (Returned (PyExpr (length st)), st ++ [leaf]).

(** The concrete class of the scalar carrying a given tag; every one of
    them derives from [pa.Scalar]. *)
Definition scalar_class_name (ty : DataType) : string :=
  match ty with
  | null => "pyarrow.lib.NullScalar"
  | bool_ => "pyarrow.lib.BooleanScalar"
  | int8 => "pyarrow.lib.Int8Scalar"
  | int16 => "pyarrow.lib.Int16Scalar"
  | int32 => "pyarrow.lib.Int32Scalar"
  | int64 => "pyarrow.lib.Int64Scalar"
  | uint8 => "pyarrow.lib.UInt8Scalar"
  | uint16 => "pyarrow.lib.UInt16Scalar"
  | uint32 => "pyarrow.lib.UInt32Scalar"
  | uint64 => "pyarrow.lib.UInt64Scalar"
  | float32 => "pyarrow.lib.FloatScalar"
  | float64 => "pyarrow.lib.DoubleScalar"
  | utf8 => "pyarrow.lib.StringScalar"
  | binary => "pyarrow.lib.BinaryScalar"
  end.

Definition scalar_class (ty : DataType) : PyClass :=
  {| cls_name := scalar_class_name ty; cls_bases := [pa_Scalar; class_object] |}.

(** The Typed Scalar [{type_tag, payload}]. *)
Definition typed_scalar (ty : DataType) (p : Value) : Value :=
  PyObject (scalar_class ty) (Some (ty, p)).

Definition int64_min : Z := - 2 ^ 63.
Definition int64_max : Z := 2 ^ 63 - 1.

(** Modelled from the spec: [pa.scalar], the coercion step, which belongs
    to pyarrow and is not part of the source.  Section 4.1, step 2: a
    machine integer becomes an integer scalar of matching width, a floating
    value a floating scalar, text a string scalar, a boolean a boolean
    scalar, the absent value a null scalar; section 8 fixes the tags
    ([int64], [float64], [utf8]); section 9: every other shape falls to a
    default arm raising [UnsupportedValueType].  An integer outside the
    64-bit range has no scalar whose tag is consistent with its payload
    (section 3) and takes the default arm.  Section 4.1: no side effects. *)
Definition spec_pa_scalar (value : Value) (st : Store) : Outcome Value * Store :=
  match value with
  | PyNone => (Returned (typed_scalar null PyNone), st)
  | PyBool b => (Returned (typed_scalar bool_ (PyBool b)), st)
  | PyInt n =>
      if (int64_min <=? n)%Z && (n <=? int64_max)%Z
      then (Returned (typed_scalar int64 (PyInt n)), st)
      else (Raised UnsupportedValueType, st)
  | PyFloat x => (Returned (typed_scalar float64 (PyFloat x)), st)
  | PyStr s => (Returned (typed_scalar utf8 (PyStr s)), st)
  | PyObject _ _ | PyExpr _ => (Raised UnsupportedValueType, st)
  end.

(** Modelled from the spec: [Expression.literal], a static method of the
    compiled extension module [datafusion._internal], which is not part of
    the source.  Section 4.1, step 3, and section 6: the entry point wraps a
    Typed Scalar in an Expression Leaf tagged "literal"; the leaf is a new
    object owned by the caller (sections 3 and 5).  The entry point is
    specified on Typed Scalars only; on any other argument it answers with
    the typed failure of section 6 and builds nothing. *)
Definition spec_Expression_literal (value : Value) (st : Store)
    : Outcome Value * Store :=
  if isinstance value pa_Scalar
  then alloc (LiteralLeaf value) st
  else (Raised (EngineFailure "literal: not a typed scalar"), st).

(** Modelled from the spec: [Expression.column], a static method of the
    compiled extension module [datafusion._internal], which is not part of
    the source.  Section 4.1 and section 6: the entry point wraps the name
    in an Expression Leaf tagged "column", with no validation of the name.
    The entry point is specified on string identifiers only; on any other
    argument it answers with the typed failure of section 6 and builds
    nothing. *)
Definition spec_Expression_column (value : Value) (st : Store)
    : Outcome Value * Store :=
  match value with
  | PyStr name => alloc (ColumnLeaf name) st
  | _ => (Raised (EngineFailure "column: not a string"), st)
  end.

#[export] Instance spec_engine : Engine Store := {|
  pa_scalar := spec_pa_scalar;
  Expression_literal := spec_Expression_literal;
  Expression_column := spec_Expression_column
|}.

(** Dereferencing a handle. *)
Definition leaf_at (st : Store) (handle : Value) : option Leaf :=
  match handle with
  | PyExpr addr => st !! addr
  | _ => None
  end.

(** A world in which nothing has happened yet. *)
Definition fresh_world : World Store := {| engine_state := []; calls := [] |}.

(** The binary64 value 3.5, that is 7 * 2^-1 normalised to 53 bits. *)
Definition float_3_5 : spec_float :=
  Eval cbv in binary_normalize 53 1024 7 (-1) false.

(** An object that answers [.type] and [.as_py()] like the scalar
    [{int64, 3}] and whose class is unrelated to [pa.Scalar]. *)
Definition duck_scalar : Value :=
  PyObject {| cls_name := "DuckScalar"; cls_bases := [class_object] |}
           (Some (int64, PyInt 3)).

(** A scalar built ahead of the call, of a width that the coercion step
    never chooses: [pa.scalar(3, pa.int8())]. *)
Definition int8_three : Value := typed_scalar int8 (PyInt 3).

(** The leaf a run hands back, or the exception it ended with. *)
Definition result_leaf (run : Outcome Value * World Store) : Outcome (option Leaf) :=
  match fst run with
  | Returned handle => Returned (leaf_at (engine_state (snd run)) handle)
  | Raised e => Raised e
  end.

(** A run hands back a literal leaf whose scalar carries tag [ty] and
    payload [p]. *)
Definition yields_literal (run : Outcome Value * World Store)
    (ty : DataType) (p : Value) : Prop :=
  exists s, result_leaf run = Returned (Some (LiteralLeaf s)) /\
            type_tag s = Some ty /\ payload s = Some p.

(** * The value model at work *)

Example float_3_5_is_binary64 : valid_binary 53 1024 float_3_5 = true.
Proof. reflexivity. Qed.

Example bool_is_an_int : isinstance (PyBool true) "int" = true.
Proof. reflexivity. Qed.

Example primitives_are_not_scalars :
  map (fun v => isinstance v pa_Scalar)
      [PyNone; PyBool true; PyInt 3; PyFloat float_3_5; PyStr "abc"; PyExpr 0]
  = [false; false; false; false; false; false].
Proof. reflexivity. Qed.

Example duck_scalar_can_but_is_not :
  scalar_capability duck_scalar = true /\
  type_tag duck_scalar = Some int64 /\
  isinstance duck_scalar pa_Scalar = false.
Proof. repeat split. Qed.

Example int8_three_is_a_scalar :
  isinstance int8_three pa_Scalar = true /\ type_tag int8_three = Some int8.
Proof. split; reflexivity. Qed.

(** * Properties of the two functions, for every engine *)

Section ShimFacts.
Context {St : Type} `{Engine St}.

Implicit Types (value arg s : Value) (w : World St) (e : PyExn).

Lemma invoke_unfold tag f arg w :
  invoke tag f arg w =
    (fst (f arg (engine_state w)),
     {| engine_state := snd (f arg (engine_state w));
        calls := calls w ++ [tag arg] |}).
Proof. unfold invoke. destruct (f arg (engine_state w)); reflexivity. Qed.

Lemma literal_scalar_path value w :
  isinstance value pa_Scalar = true ->
  literal value w = invoke call_Expression_literal Expression_literal value w.
Proof. intros Hs. unfold literal, bind, ret. rewrite Hs. reflexivity. Qed.

Lemma literal_coerce_path value w :
  isinstance value pa_Scalar = false ->
  literal value w =
    match invoke call_pa_scalar pa_scalar value w with
    | (Returned s, w') => invoke call_Expression_literal Expression_literal s w'
    | (Raised e, w') => (Raised e, w')
    end.
Proof. intros Hs. unfold literal, bind. rewrite Hs. reflexivity. Qed.

(** Where an exception of [literal] comes from: [literal] raises nothing
    of its own and catches nothing. *)
Lemma literal_raised_origin value w e :
  fst (literal value w) = Raised e ->
  (isinstance value pa_Scalar = false /\
   fst (pa_scalar value (engine_state w)) = Raised e) \/
  (exists s st, fst (Expression_literal s st) = Raised e /\
     ((isinstance value pa_Scalar = true /\ s = value /\ st = engine_state w) \/
      (isinstance value pa_Scalar = false /\
       pa_scalar value (engine_state w) = (Returned s, st)))).
Proof.
  destruct (isinstance value pa_Scalar) eqn:Hs.
  - rewrite literal_scalar_path, invoke_unfold by assumption. simpl.
    intros He. right. exists value, (engine_state w). auto.
  - rewrite literal_coerce_path, invoke_unfold by assumption.
    destruct (pa_scalar value (engine_state w)) as [[s|e'] st] eqn:Hc; simpl.
    + rewrite invoke_unfold. simpl. intros He. right. exists s, st. auto.
    + intros He. left. auto.
Qed.

(** The calls a run of [literal] adds to the log. *)
Lemma literal_calls value w :
  calls (snd (literal value w)) =
    calls w ++
      (if isinstance value pa_Scalar
       then [call_Expression_literal value]
       else call_pa_scalar value ::
            match fst (pa_scalar value (engine_state w)) with
            | Returned s => [call_Expression_literal s]
            | Raised _ => []
            end).
Proof.
  destruct (isinstance value pa_Scalar) eqn:Hv.
  - rewrite literal_scalar_path, invoke_unfold by assumption. reflexivity.
  - rewrite literal_coerce_path, invoke_unfold by assumption.
    destruct (pa_scalar value (engine_state w)) as [[s|e] st]; cbn [fst snd].
    + rewrite invoke_unfold. cbn [snd calls].
      rewrite <- app_assoc. reflexivity.
    + reflexivity.
Qed.

End ShimFacts.

(** * Properties of the collaborators as specified *)

Section SpecEngineFacts.
Implicit Types (value s : Value) (st : Store) (w : World Store) (e : PyExn).

Lemma typed_scalar_isinstance (ty : DataType) (p : Value) :
  isinstance (typed_scalar ty p) pa_Scalar = true.
Proof. destruct ty; reflexivity. Qed.

Lemma typed_scalar_interface (ty : DataType) (p : Value) :
  type_tag (typed_scalar ty p) = Some ty /\ payload (typed_scalar ty p) = Some p.
Proof. split; reflexivity. Qed.

(** The coercion step changes nothing in the store. *)
Lemma spec_pa_scalar_store value st : snd (spec_pa_scalar value st) = st.
Proof.
  destruct value; simpl; try reflexivity.
  destruct (_ && _); reflexivity.
Qed.

(** Its answer does not depend on the store. *)
Lemma spec_pa_scalar_outcome value st st' :
  fst (spec_pa_scalar value st) = fst (spec_pa_scalar value st').
Proof.
  destruct value; simpl; try reflexivity.
  destruct (_ && _); reflexivity.
Qed.

(** What it returns is an instance of [pa.Scalar]. *)
Lemma spec_pa_scalar_returns_scalar value st s :
  fst (spec_pa_scalar value st) = Returned s -> isinstance s pa_Scalar = true.
Proof.
  destruct value; simpl; try discriminate;
    try (intros [= <-]; apply typed_scalar_isinstance).
  destruct (_ && _); simpl; try discriminate.
  intros [= <-]. apply typed_scalar_isinstance.
Qed.

(** The one exception it raises. *)
Lemma spec_pa_scalar_raises value st e :
  fst (spec_pa_scalar value st) = Raised e -> e = UnsupportedValueType.
Proof.
  destruct value; simpl; try discriminate; try (intros [= <-]; reflexivity).
  destruct (_ && _); simpl; try discriminate.
  intros [= <-]. reflexivity.
Qed.

Lemma leaf_at_alloc st (leaf : Leaf) :
  leaf_at (st ++ [leaf]) (PyExpr (length st)) = Some leaf.
Proof. simpl. apply list_lookup_middle. reflexivity. Qed.

Lemma leaf_at_older st (new : list Leaf) (addr : nat) (leaf : Leaf) :
  leaf_at st (PyExpr addr) = Some leaf -> leaf_at (st ++ new) (PyExpr addr) = Some leaf.
Proof. simpl. intros Hl. apply lookup_app_l_Some. exact Hl. Qed.

Lemma spec_literal_scalar s w :
  isinstance s pa_Scalar = true ->
  literal s w =
    (Returned (PyExpr (length (engine_state w))),
     {| engine_state := engine_state w ++ [LiteralLeaf s];
        calls := calls w ++ [call_Expression_literal s] |}).
Proof.
  intros Hs. rewrite literal_scalar_path by assumption.
  unfold invoke. simpl. unfold spec_Expression_literal. rewrite Hs. reflexivity.
Qed.

Lemma spec_literal_coerced value w s :
  isinstance value pa_Scalar = false ->
  fst (spec_pa_scalar value (engine_state w)) = Returned s ->
  literal value w =
    (Returned (PyExpr (length (engine_state w))),
     {| engine_state := engine_state w ++ [LiteralLeaf s];
        calls := calls w ++ [call_pa_scalar value; call_Expression_literal s] |}).
Proof.
  intros Hv Hc. rewrite literal_coerce_path, invoke_unfold by assumption.
  simpl. rewrite Hc, spec_pa_scalar_store, invoke_unfold. simpl.
  unfold spec_Expression_literal.
  rewrite (spec_pa_scalar_returns_scalar _ _ _ Hc). simpl.
  rewrite <- app_assoc. reflexivity.
Qed.

Lemma spec_literal_raised value w e :
  isinstance value pa_Scalar = false ->
  fst (spec_pa_scalar value (engine_state w)) = Raised e ->
  literal value w =
    (Raised e,
     {| engine_state := engine_state w;
        calls := calls w ++ [call_pa_scalar value] |}).
Proof.
  intros Hv Hc. rewrite literal_coerce_path, invoke_unfold by assumption.
  simpl. rewrite Hc, spec_pa_scalar_store. reflexivity.
Qed.

Lemma spec_column_name (name : string) w :
  column (PyStr name) w =
    (Returned (PyExpr (length (engine_state w))),
     {| engine_state := engine_state w ++ [ColumnLeaf name];
        calls := calls w ++ [call_Expression_column (PyStr name)] |}).
Proof. reflexivity. Qed.

End SpecEngineFacts.

Section SpecRuns.
Implicit Types (value s : Value) (st : Store) (w : World Store) (e : PyExn).

(** The three ways a run of [literal] can go. *)
Lemma spec_literal_cases value w :
  (isinstance value pa_Scalar = true /\
   literal value w =
     (Returned (PyExpr (length (engine_state w))),
      {| engine_state := engine_state w ++ [LiteralLeaf value];
         calls := calls w ++ [call_Expression_literal value] |})) \/
  (exists s, isinstance value pa_Scalar = false /\
     fst (spec_pa_scalar value (engine_state w)) = Returned s /\
     literal value w =
       (Returned (PyExpr (length (engine_state w))),
        {| engine_state := engine_state w ++ [LiteralLeaf s];
           calls := calls w ++ [call_pa_scalar value; call_Expression_literal s] |})) \/
  (isinstance value pa_Scalar = false /\
   fst (spec_pa_scalar value (engine_state w)) = Raised UnsupportedValueType /\
   literal value w =
     (Raised UnsupportedValueType,
      {| engine_state := engine_state w;
         calls := calls w ++ [call_pa_scalar value] |})).
Proof.
  destruct (isinstance value pa_Scalar) eqn:Hv.
  - left. split; [reflexivity | apply spec_literal_scalar; assumption].
  - right.
    destruct (fst (spec_pa_scalar value (engine_state w))) as [s|e] eqn:Hc.
    + left. exists s. repeat split. apply spec_literal_coerced; assumption.
    + right. pose proof (spec_pa_scalar_raises _ _ _ Hc) as ->.
      repeat split. apply spec_literal_raised; assumption.
Qed.

Lemma spec_literal_scalar_leaf s w :
  isinstance s pa_Scalar = true ->
  result_leaf (literal s w) = Returned (Some (LiteralLeaf s)).
Proof.
  intros Hs. rewrite spec_literal_scalar by assumption.
  unfold result_leaf. cbn [fst snd engine_state].
  rewrite leaf_at_alloc. reflexivity.
Qed.

Lemma spec_literal_coerced_leaf value w s :
  isinstance value pa_Scalar = false ->
  fst (spec_pa_scalar value (engine_state w)) = Returned s ->
  result_leaf (literal value w) = Returned (Some (LiteralLeaf s)).
Proof.
  intros Hv Hc. rewrite (spec_literal_coerced _ _ _ Hv Hc).
  unfold result_leaf. cbn [fst snd engine_state].
  rewrite leaf_at_alloc. reflexivity.
Qed.

Lemma spec_literal_raised_leaf value w e :
  isinstance value pa_Scalar = false ->
  fst (spec_pa_scalar value (engine_state w)) = Raised e ->
  result_leaf (literal value w) = Raised e.
Proof.
  intros Hv Hc. rewrite (spec_literal_raised _ _ _ Hv Hc). reflexivity.
Qed.

Lemma spec_column_leaf (name : string) w :
  result_leaf (column (PyStr name) w) = Returned (Some (ColumnLeaf name)).
Proof.
  rewrite spec_column_name. unfold result_leaf. cbn [fst snd engine_state].
  rewrite leaf_at_alloc. reflexivity.
Qed.

(** The result of [literal] is a function of its argument alone. *)
Lemma spec_literal_world_independent value w w' :
  result_leaf (literal value w) = result_leaf (literal value w').
Proof.
  destruct (isinstance value pa_Scalar) eqn:Hv.
  - rewrite !spec_literal_scalar_leaf by assumption. reflexivity.
  - destruct (fst (spec_pa_scalar value (engine_state w))) as [s|e] eqn:Hc.
    + rewrite (spec_literal_coerced_leaf _ _ _ Hv Hc).
      rewrite (spec_pa_scalar_outcome _ _ (engine_state w')) in Hc.
      rewrite (spec_literal_coerced_leaf _ _ _ Hv Hc). reflexivity.
    + rewrite (spec_literal_raised_leaf _ _ _ Hv Hc).
      rewrite (spec_pa_scalar_outcome _ _ (engine_state w')) in Hc.
      rewrite (spec_literal_raised_leaf _ _ _ Hv Hc). reflexivity.
Qed.

Lemma spec_column_world_independent value w w' :
  result_leaf (column value w) = result_leaf (column value w').
Proof.
  destruct value; try reflexivity.
  rewrite !spec_column_leaf. reflexivity.
Qed.

(** Neither function touches a leaf that exists: the store only grows. *)
Lemma spec_literal_store_grows value w :
  engine_state w `prefix_of` engine_state (snd (literal value w)).
Proof.
  destruct (spec_literal_cases value w) as [[_ ->]|[(s & _ & _ & ->)|(_ & _ & ->)]];
    cbn [snd engine_state]; try apply prefix_app_r; reflexivity.
Qed.

Lemma spec_column_store_grows value w :
  engine_state w `prefix_of` engine_state (snd (column value w)).
Proof.
  destruct value; cbn; try reflexivity.
  apply prefix_app_r. reflexivity.
Qed.

(** A successful run of [literal] returns the handle of a leaf it has just
    added to the store. *)
Lemma spec_literal_returned value w (handle : Value) (w' : World Store) :
  literal value w = (Returned handle, w') ->
  exists s,
    handle = PyExpr (length (engine_state w)) /\
    engine_state w' = engine_state w ++ [LiteralLeaf s] /\
    result_leaf (literal value w) = Returned (Some (LiteralLeaf s)).
Proof.
  intros Hrun.
  destruct (spec_literal_cases value w)
    as [[Hv Hlit]|[(s & Hv & Hc & Hlit)|(Hv & Hc & Hlit)]].
  - exists value. rewrite Hlit in Hrun. injection Hrun as <- <-.
    repeat split. apply spec_literal_scalar_leaf. assumption.
  - exists s. rewrite Hlit in Hrun. injection Hrun as <- <-.
    repeat split. apply spec_literal_coerced_leaf; assumption.
  - rewrite Hlit in Hrun. discriminate Hrun.
Qed.

(** Two runs of [literal] on the same value, one after the other: two
    objects, equal leaves. *)
Lemma spec_literal_twice value w (h1 h2 : Value) (w1 w2 : World Store) :
  literal value w = (Returned h1, w1) ->
  literal value w1 = (Returned h2, w2) ->
  h1 <> h2 /\
  exists leaf, leaf_at (engine_state w2) h1 = Some leaf /\
               leaf_at (engine_state w2) h2 = Some leaf.
Proof.
  intros Hrun1 Hrun2.
  destruct (spec_literal_returned _ _ _ _ Hrun1) as (s1 & -> & Hst1 & Hleaf1).
  destruct (spec_literal_returned _ _ _ _ Hrun2) as (s2 & -> & Hst2 & Hleaf2).
  rewrite (spec_literal_world_independent value w w1), Hleaf2 in Hleaf1.
  injection Hleaf1 as <-.
  split.
  - rewrite Hst1. intros [= Heq]. rewrite length_app in Heq. cbn in Heq. lia.
  - exists (LiteralLeaf s2). rewrite Hst2. split.
    + apply leaf_at_older. rewrite Hst1. apply leaf_at_alloc.
    + apply leaf_at_alloc.
Qed.

End SpecRuns.

(** * The claims *)

(** C1: for every value [v] that is not an instance of [pa.Scalar],
    [literal v] first runs the coercion step [pa.scalar] on [v] and then
    hands the scalar it returned to [Expression.literal], whose answer is
    the answer of [literal]: literal(v) is Expression.literal(pa.scalar(v)).
    When the coercion step raises, the run ends there with its exception. *)
Theorem literal_coerces_then_wraps {St : Type} `{Engine St}
    (v : Value) (w : World St) :
  isinstance v pa_Scalar = false ->
  literal v w =
    match pa_scalar v (engine_state w) with
    | (Returned s, st1) =>
        let (r, st2) := Expression_literal s st1 in
        (r, {| engine_state := st2;
               calls := calls w ++ [call_pa_scalar v; call_Expression_literal s] |})
    | (Raised e, st1) =>
        (Raised e, {| engine_state := st1;
                      calls := calls w ++ [call_pa_scalar v] |})
    end.
Proof.
  intros Hv. rewrite literal_coerce_path by assumption. unfold invoke.
  destruct (pa_scalar v (engine_state w)) as [[s|e] st1]; [|reflexivity].
  cbn [engine_state calls].
  destruct (Expression_literal s st1) as [r st2].
  rewrite <- app_assoc. reflexivity.
Qed.

Lemma literal_coerces_then_wraps_witness :
  isinstance (PyInt 3) pa_Scalar = false /\
  literal (PyInt 3) fresh_world =
    (Returned (PyExpr 0),
     {| engine_state := [LiteralLeaf (typed_scalar int64 (PyInt 3))];
        calls := [call_pa_scalar (PyInt 3);
                  call_Expression_literal (typed_scalar int64 (PyInt 3))] |}).
Proof.
  split; [reflexivity|].
  exact (literal_coerces_then_wraps (PyInt 3) fresh_world eq_refl).
Defined.

(** C2: for every value [s] that is an instance of [pa.Scalar], [literal s]
    skips the coercion step and hands [s] itself to [Expression.literal]:
    that is the only call made, its argument is [s], and its answer is the
    answer of [literal].  With the leaf constructor of the specification
    the run returns a fresh literal leaf whose scalar is [s], with the tag
    and the payload [s] came with. *)
Theorem literal_scalar_unchanged (s : Value) :
  isinstance s pa_Scalar = true ->
  (forall (St : Type) (E : Engine St) (w : World St),
      literal s w =
        let (r, st') := Expression_literal s (engine_state w) in
        (r, {| engine_state := st';
               calls := calls w ++ [call_Expression_literal s] |})) /\
  (forall w : World Store,
      result_leaf (literal s w) = Returned (Some (LiteralLeaf s))).
Proof.
  intros Hs. split.
  - intros St E w. rewrite literal_scalar_path by assumption. reflexivity.
  - intros w. apply spec_literal_scalar_leaf. assumption.
Qed.

Lemma literal_scalar_unchanged_witness :
  isinstance int8_three pa_Scalar = true /\
  result_leaf (literal int8_three fresh_world) = Returned (Some (LiteralLeaf int8_three)) /\
  type_tag int8_three = Some int8.
Proof.
  split; [reflexivity|]. split; [|reflexivity].
  exact (proj2 (literal_scalar_unchanged int8_three eq_refl) fresh_world).
Defined.

(** C3: with the collaborators of the specification, [literal value] fails
    exactly when the coercion step is run (the value is not yet a scalar)
    and cannot map the value to a scalar; the exception is then the one
    the coercion step raised, [UnsupportedValueType], handed to the caller
    as it is.  [literal] fails in no other way. *)
Theorem literal_failure_modes (value : Value) (w : World Store) :
  (raised (fst (literal value w)) = true <->
   isinstance value pa_Scalar = false /\
   raised (fst (pa_scalar value (engine_state w))) = true) /\
  (forall e : PyExn,
      fst (literal value w) = Raised e ->
      e = UnsupportedValueType /\
      fst (pa_scalar value (engine_state w)) = Raised e).
Proof.
  destruct (spec_literal_cases value w)
    as [[Hv Hrun]|[(s & Hv & Hc & Hrun)|(Hv & Hc & Hrun)]];
    rewrite Hrun; cbn [fst]; cbn [pa_scalar spec_engine].
  - split.
    + split; [discriminate|]. intros [Hv' _]. congruence.
    + discriminate.
  - rewrite Hc. split.
    + split; [discriminate|]. intros [_ Hr]. discriminate Hr.
    + discriminate.
  - rewrite Hc. split.
    + split; [intros _; split; [assumption|reflexivity]|reflexivity].
    + intros e [= <-]. split; reflexivity.
Qed.

Lemma literal_failure_modes_witness :
  fst (literal duck_scalar fresh_world) = Raised UnsupportedValueType /\
  UnsupportedValueType = UnsupportedValueType /\
  fst (pa_scalar duck_scalar (engine_state fresh_world)) = Raised UnsupportedValueType.
Proof.
  split; [reflexivity|].
  exact (proj2 (literal_failure_modes duck_scalar fresh_world)
               UnsupportedValueType eq_refl).
Defined.

(** C4: for every name, [column name] makes one call, to
    [Expression.column], with the name as it was given, and answers what
    that call answers, in the state that call left: no coercion, no
    transformation, no validation; an exception of [column] can only be
    one [Expression.column] raised.  With the leaf constructor of the
    specification the run returns a fresh column leaf holding the name. *)
Theorem column_wraps_name (name : string) :
  (forall (St : Type) (E : Engine St) (w : World St),
      column (PyStr name) w =
        (let (r, st') := Expression_column (PyStr name) (engine_state w) in
         (r, {| engine_state := st';
                calls := calls w ++ [call_Expression_column (PyStr name)] |})) /\
      raised (fst (column (PyStr name) w)) =
        raised (fst (Expression_column (PyStr name) (engine_state w)))) /\
  (forall w : World Store,
      result_leaf (column (PyStr name) w) = Returned (Some (ColumnLeaf name))).
Proof.
  split.
  - intros St E w. split; [reflexivity|].
    unfold column. rewrite invoke_unfold. reflexivity.
  - intros w. apply spec_column_leaf.
Qed.

(** C5: with the collaborators of the specification, [literal 3] returns
    a literal leaf whose scalar has tag [int64] and payload [3],
    [literal 3.5] one with tag [float64] and payload [3.5],
    [literal "abc"] one with tag [utf8] and payload ["abc"], and
    [column "age"] returns a column leaf holding the name ["age"]. *)
Theorem canonical_examples (w : World Store) :
  yields_literal (literal (PyInt 3) w) int64 (PyInt 3) /\
  yields_literal (literal (PyFloat float_3_5) w) float64 (PyFloat float_3_5) /\
  yields_literal (literal (PyStr "abc") w) utf8 (PyStr "abc") /\
  result_leaf (column (PyStr "age") w) = Returned (Some (ColumnLeaf "age")).
Proof.
  repeat split.
  - exists (typed_scalar int64 (PyInt 3)). repeat split.
    apply spec_literal_coerced_leaf; reflexivity.
  - exists (typed_scalar float64 (PyFloat float_3_5)). repeat split.
    apply spec_literal_coerced_leaf; reflexivity.
  - exists (typed_scalar utf8 (PyStr "abc")). repeat split.
    apply spec_literal_coerced_leaf; reflexivity.
  - apply spec_column_leaf.
Qed.

(** C6: with the collaborators of the specification, [literal None] does
    not raise: it returns a literal leaf whose scalar has the tag [null]. *)
Theorem literal_None_is_null (w : World Store) :
  raised (fst (literal PyNone w)) = false /\
  yields_literal (literal PyNone w) null PyNone.
Proof.
  split.
  - rewrite (spec_literal_coerced PyNone w (typed_scalar null PyNone));
      reflexivity.
  - exists (typed_scalar null PyNone). repeat split.
    apply spec_literal_coerced_leaf; reflexivity.
Qed.

(** C7, as stated, fails: an object that has the typed scalar capability
    (it answers [.type] and [.as_py()]) and whose class does not derive
    from [pa.Scalar] is not taken unchanged; [literal] sends it to the
    coercion step. *)
Lemma capability_is_not_the_test :
  ~ (forall (v : Value) (w : World Store),
        scalar_capability v = true ->
        calls (snd (literal v w)) = calls w ++ [call_Expression_literal v]).
Proof.
  intros Hfast.
  specialize (Hfast duck_scalar fresh_world eq_refl).
  discriminate Hfast.
Qed.

(** C7, amended: [literal] recognises a scalar by a run-time class check,
    [isinstance(value, pa.Scalar)].  The calls a run makes are decided by
    that check alone: an instance goes straight to [Expression.literal],
    unchanged; every other value goes to the coercion step first.  For an
    object the check is membership of [pa.Scalar] in the method-resolution
    order of its class: it holds for [pa.Scalar] and for every class
    derived from it, whatever the name of the class, and it does not look
    at what the object can do. *)
Theorem literal_dispatch_by_class {St : Type} `{Engine St}
    (value : Value) (w : World St) :
  calls (snd (literal value w)) =
    calls w ++
      (if isinstance value pa_Scalar
       then [call_Expression_literal value]
       else call_pa_scalar value ::
            match fst (pa_scalar value (engine_state w)) with
            | Returned s => [call_Expression_literal s]
            | Raised _ => []
            end) /\
  (forall (cls : PyClass) (iface : option (DataType * Value)),
      isinstance (PyObject cls iface) pa_Scalar =
        bool_decide (pa_Scalar ∈ cls_name cls :: cls_bases cls)) /\
  (forall (name : string) (bases : list string) (iface : option (DataType * Value)),
      isinstance (PyObject {| cls_name := name; cls_bases := pa_Scalar :: bases |} iface)
                 pa_Scalar = true).
Proof.
  split; [|split].
  - apply literal_calls.
  - reflexivity.
  - intros name bases iface. unfold isinstance, mro. cbn [type_of cls_name cls_bases].
    apply bool_decide_eq_true. apply elem_of_cons. right.
    apply elem_of_cons. left. reflexivity.
Qed.

(** C8: whenever the coercion step only returns instances of [pa.Scalar],
    every call that a run of [literal] makes to [Expression.literal] has an
    instance of [pa.Scalar] as its argument: either the input itself, when
    it is one, or what [pa.scalar], called first, returned for the input. *)
Theorem engine_receives_typed_scalars {St : Type} `{Engine St} :
  (forall (v s : Value) (st : St),
      fst (pa_scalar v st) = Returned s -> isinstance s pa_Scalar = true) ->
  forall (value : Value) (w : World St),
  exists new : list Call,
    calls (snd (literal value w)) = calls w ++ new /\
    (forall arg : Value,
        call_Expression_literal arg ∈ new ->
        isinstance arg pa_Scalar = true /\
        (arg = value \/
         (head new = Some (call_pa_scalar value) /\
          fst (pa_scalar value (engine_state w)) = Returned arg))).
Proof.
  intros Hpost value w.
  eexists. split; [apply literal_calls|].
  destruct (isinstance value pa_Scalar) eqn:Hv.
  - intros arg Hin. apply list_elem_of_singleton in Hin.
    injection Hin as ->. split; [assumption|left; reflexivity].
  - intros arg Hin. apply elem_of_cons in Hin as [Hin|Hin]; [discriminate Hin|].
    destruct (fst (pa_scalar value (engine_state w))) as [s|e] eqn:Hc.
    + apply list_elem_of_singleton in Hin. injection Hin as ->.
      split; [exact (Hpost _ _ _ Hc)|]. right. split; reflexivity.
    + apply elem_of_nil in Hin. contradiction.
Qed.

Lemma engine_receives_typed_scalars_witness :
  (forall (v s : Value) (st : Store),
      fst (spec_pa_scalar v st) = Returned s -> isinstance s pa_Scalar = true) /\
  exists new : list Call,
    calls (snd (literal (PyStr "abc") fresh_world)) = calls fresh_world ++ new /\
    (forall arg : Value,
        call_Expression_literal arg ∈ new ->
        isinstance arg pa_Scalar = true /\
        (arg = PyStr "abc" \/
         (head new = Some (call_pa_scalar (PyStr "abc")) /\
          fst (spec_pa_scalar (PyStr "abc") []) = Returned arg))).
Proof.
  split.
  - intros v s st. apply spec_pa_scalar_returns_scalar.
  - exact (engine_receives_typed_scalars
             (fun v s st => spec_pa_scalar_returns_scalar v st s)
             (PyStr "abc") fresh_world).
Defined.

(** C9: with the collaborators of the specification, [column] and
    [literal] are deterministic and free of side effects.  The leaf a call
    returns (or the exception it raises) is a function of the argument
    alone, whatever the state it runs in; a call changes no leaf that
    exists, it only adds the one it returns; and two calls of [column] with
    the same name, or of [literal] with the same value, return two
    different objects holding equal leaves. *)
Theorem column_literal_pure :
  (forall (v : Value) (w w' : World Store),
      result_leaf (literal v w) = result_leaf (literal v w')) /\
  (forall (v : Value) (w w' : World Store),
      result_leaf (column v w) = result_leaf (column v w')) /\
  (forall (v : Value) (w : World Store),
      engine_state w `prefix_of` engine_state (snd (literal v w)) /\
      engine_state w `prefix_of` engine_state (snd (column v w))) /\
  (forall (name : string) (w : World Store),
      exists (h1 h2 : Value) (w1 w2 : World Store),
        column (PyStr name) w = (Returned h1, w1) /\
        column (PyStr name) w1 = (Returned h2, w2) /\
        h1 <> h2 /\
        leaf_at (engine_state w2) h1 = Some (ColumnLeaf name) /\
        leaf_at (engine_state w2) h2 = Some (ColumnLeaf name)) /\
  (forall (v h1 h2 : Value) (w w1 w2 : World Store),
      literal v w = (Returned h1, w1) ->
      literal v w1 = (Returned h2, w2) ->
      h1 <> h2 /\
      exists leaf : Leaf,
        leaf_at (engine_state w2) h1 = Some leaf /\
        leaf_at (engine_state w2) h2 = Some leaf).
Proof.
  split; [exact spec_literal_world_independent|].
  split; [exact spec_column_world_independent|].
  split; [|split].
  - intros v w. split;
      [apply spec_literal_store_grows | apply spec_column_store_grows].
  - intros name w. do 4 eexists.
    split; [apply spec_column_name|]. split; [apply spec_column_name|].
    cbn [engine_state]. split; [|split].
    + intros [= Heq]. rewrite length_app in Heq. cbn in Heq. lia.
    + apply leaf_at_older, leaf_at_alloc.
    + apply leaf_at_alloc.
  - intros v h1 h2 w w1 w2. apply spec_literal_twice.
Qed.

Lemma column_literal_pure_witness :
  literal (PyInt 3) fresh_world =
    (Returned (PyExpr 0),
     {| engine_state := [LiteralLeaf (typed_scalar int64 (PyInt 3))];
        calls := [call_pa_scalar (PyInt 3);
                  call_Expression_literal (typed_scalar int64 (PyInt 3))] |}) /\
  PyExpr 0 <> PyExpr 1 /\
  exists leaf : Leaf,
    leaf_at [LiteralLeaf (typed_scalar int64 (PyInt 3));
             LiteralLeaf (typed_scalar int64 (PyInt 3))] (PyExpr 0) = Some leaf /\
    leaf_at [LiteralLeaf (typed_scalar int64 (PyInt 3));
             LiteralLeaf (typed_scalar int64 (PyInt 3))] (PyExpr 1) = Some leaf.
Proof.
  split; [reflexivity|].
  exact (proj2 (proj2 (proj2 (proj2 column_literal_pure)))
           (PyInt 3) (PyExpr 0) (PyExpr 1) fresh_world _ _ eq_refl eq_refl).
Defined.

(** C10: [column] does not look at its argument.  For every value, a
    string or not, a run of [column] makes exactly one call, to
    [Expression.column], with the value as it was given; its result and the
    state it leaves are those of that call, so it raises only what that
    call raises. *)
Theorem column_delegates_any_value {St : Type} `{Engine St}
    (value : Value) (w : World St) :
  fst (column value w) = fst (Expression_column value (engine_state w)) /\
  engine_state (snd (column value w)) =
    snd (Expression_column value (engine_state w)) /\
  calls (snd (column value w)) = calls w ++ [call_Expression_column value].
Proof.
  unfold column. rewrite invoke_unfold. repeat split.
Qed.

(** * Further properties of [literal] and [column], for every engine *)

(** X1: [literal value] raises [e] exactly when one of the calls it makes
    raises [e]: for an instance of [pa.Scalar] the call to
    [Expression.literal] on the value; for any other value the call to
    [pa.scalar], or, when that returned a scalar, the call to
    [Expression.literal] on that scalar.  Nothing is caught, nothing is
    replaced, nothing is raised by [literal] itself. *)
Theorem literal_raises_iff {St : Type} `{Engine St}
    (value : Value) (w : World St) (e : PyExn) :
  fst (literal value w) = Raised e <->
  (if isinstance value pa_Scalar
   then fst (Expression_literal value (engine_state w)) = Raised e
   else match pa_scalar value (engine_state w) with
        | (Returned s, st) => fst (Expression_literal s st) = Raised e
        | (Raised e', _) => e' = e
        end).
Proof.
  destruct (isinstance value pa_Scalar) eqn:Hv.
  - rewrite literal_scalar_path, invoke_unfold by assumption. reflexivity.
  - rewrite literal_coerce_path, invoke_unfold by assumption.
    destruct (pa_scalar value (engine_state w)) as [[s|e'] st]; cbn [fst snd].
    + rewrite invoke_unfold. reflexivity.
    + split; [intros [= ->]; reflexivity | intros ->; reflexivity].
Qed.

(** X2: whatever [literal] returns was returned by [Expression.literal].
    When a run of [literal] returns [h], its last call was
    [Expression.literal s], for [s] the value itself (an instance of
    [pa.Scalar]) or the scalar [pa.scalar] returned for it; that call
    returned [h] and left the engine in the state the run ends in.  The run
    made no call to [Expression.column]. *)
Theorem literal_returns_what_the_engine_built {St : Type} `{Engine St}
    (value h : Value) (w w' : World St) :
  literal value w = (Returned h, w') ->
  exists (s : Value) (st : St) (new : list Call),
    ((isinstance value pa_Scalar = true /\ s = value /\ st = engine_state w) \/
     (isinstance value pa_Scalar = false /\
      pa_scalar value (engine_state w) = (Returned s, st))) /\
    Expression_literal s st = (Returned h, engine_state w') /\
    calls w' = calls w ++ new /\
    last new = Some (call_Expression_literal s) /\
    (forall arg : Value, call_Expression_column arg ∉ new).
Proof.
  destruct (isinstance value pa_Scalar) eqn:Hv.
  - rewrite literal_scalar_path by assumption. unfold invoke.
    destruct (Expression_literal value (engine_state w)) as [r st'] eqn:He.
    intros [= -> <-].
    exists value, (engine_state w), [call_Expression_literal value].
    split; [left; auto|]. split; [exact He|]. split; [reflexivity|].
    split; [reflexivity|].
    intros arg Hin. apply list_elem_of_singleton in Hin. discriminate Hin.
  - rewrite literal_coerce_path by assumption. unfold invoke.
    destruct (pa_scalar value (engine_state w)) as [[s|e] st] eqn:Hc;
      [|discriminate].
    cbn [engine_state calls].
    destruct (Expression_literal s st) as [r st'] eqn:He.
    intros [= -> <-].
    exists s, st, [call_pa_scalar value; call_Expression_literal s].
    split; [right; auto|]. split; [exact He|].
    split; [cbn [calls]; rewrite <- app_assoc; reflexivity|].
    split; [reflexivity|].
    intros arg Hin. apply elem_of_cons in Hin as [Hin|Hin]; [discriminate Hin|].
    apply list_elem_of_singleton in Hin. discriminate Hin.
Qed.

Lemma literal_returns_what_the_engine_built_witness :
  exists (s : Value) (st : Store) (new : list Call),
    ((isinstance (PyInt 3) pa_Scalar = true /\ s = PyInt 3 /\ st = []) \/
     (isinstance (PyInt 3) pa_Scalar = false /\
      spec_pa_scalar (PyInt 3) [] = (Returned s, st))) /\
    spec_Expression_literal s st =
      (Returned (PyExpr 0), [LiteralLeaf (typed_scalar int64 (PyInt 3))]) /\
    [call_pa_scalar (PyInt 3);
     call_Expression_literal (typed_scalar int64 (PyInt 3))] = [] ++ new /\
    last new = Some (call_Expression_literal s) /\
    (forall arg : Value, call_Expression_column arg ∉ new).
Proof.
  exact (literal_returns_what_the_engine_built
           (PyInt 3) (PyExpr 0) fresh_world _ eq_refl).
Defined.

(** X3: coercing ahead of the call changes nothing.  When [value] is not an
    instance of [pa.Scalar] and [pa.scalar value] returns [s], an instance
    of [pa.Scalar], then [literal value] and [literal s], the latter run in
    the state [pa.scalar] left, return the same result (or raise the same
    exception) and leave the engine in the same state:
    literal(v) behaves as literal(pa.scalar(v)). *)
Theorem literal_of_coerced {St : Type} `{Engine St}
    (value s : Value) (st : St) (w w1 : World St) :
  isinstance value pa_Scalar = false ->
  pa_scalar value (engine_state w) = (Returned s, st) ->
  isinstance s pa_Scalar = true ->
  engine_state w1 = st ->
  fst (literal value w) = fst (literal s w1) /\
  engine_state (snd (literal value w)) = engine_state (snd (literal s w1)).
Proof.
  intros Hv Hc Hs <-.
  rewrite (literal_scalar_path s) by assumption.
  rewrite literal_coerce_path by assumption.
  rewrite !invoke_unfold, Hc. cbn [fst snd].
  rewrite invoke_unfold. cbn [fst snd engine_state]. split; reflexivity.
Qed.

Lemma literal_of_coerced_witness :
  isinstance (PyStr "abc") pa_Scalar = false /\
  spec_pa_scalar (PyStr "abc") [] = (Returned (typed_scalar utf8 (PyStr "abc")), []) /\
  isinstance (typed_scalar utf8 (PyStr "abc")) pa_Scalar = true /\
  fst (literal (PyStr "abc") fresh_world) =
    fst (literal (typed_scalar utf8 (PyStr "abc")) fresh_world) /\
  engine_state (snd (literal (PyStr "abc") fresh_world)) =
    engine_state (snd (literal (typed_scalar utf8 (PyStr "abc")) fresh_world)).
Proof.
  do 3 (split; [reflexivity|]).
  exact (literal_of_coerced (PyStr "abc") (typed_scalar utf8 (PyStr "abc")) []
           fresh_world fresh_world eq_refl eq_refl eq_refl eq_refl).
Defined.

(** X4: a value of a built-in type never takes the fast path.  When
    [type(value)] is [NoneType], [bool], [int], [float] or [str], the value
    is not an instance of [pa.Scalar] and [literal] calls [pa.scalar] on it
    before anything else. *)
Theorem literal_coerces_builtins {St : Type} `{Engine St}
    (value : Value) (w : World St) :
  type_of value ∈ [NoneType; class_bool; class_int; class_float; class_str] ->
  isinstance value pa_Scalar = false /\
  exists rest : list Call,
    calls (snd (literal value w)) = calls w ++ call_pa_scalar value :: rest.
Proof.
  intros Hty.
  assert (Hv : isinstance value pa_Scalar = false).
  { unfold isinstance.
    repeat (apply elem_of_cons in Hty as [-> | Hty]; [reflexivity|]).
    apply elem_of_nil in Hty. contradiction. }
  split; [exact Hv|].
  rewrite literal_calls, Hv. eexists. reflexivity.
Qed.

Lemma literal_coerces_builtins_witness :
  type_of (PyBool true) ∈ [NoneType; class_bool; class_int; class_float; class_str] /\
  isinstance (PyBool true) pa_Scalar = false /\
  exists rest : list Call,
    calls (snd (literal (PyBool true) fresh_world)) =
      calls fresh_world ++ call_pa_scalar (PyBool true) :: rest.
Proof.
  assert (Hty : type_of (PyBool true)
                ∈ [NoneType; class_bool; class_int; class_float; class_str]).
  { apply elem_of_cons. right. apply elem_of_cons. left. reflexivity. }
  split; [exact Hty|].
  exact (literal_coerces_builtins (PyBool true) fresh_world Hty).
Defined.

(** X5: [literal] does not pass an [Expression] through.  Given the handle
    of an [Expression] object (what [column] and [literal] return; its
    class, [datafusion._internal.Expression], is taken not to derive from
    [pa.Scalar]), [literal] calls [pa.scalar] on it first; when that call
    raises, so does [literal], with the same exception, and
    [Expression.literal] is not called. *)
Theorem literal_of_expression_is_coerced {St : Type} `{Engine St}
    (addr : nat) (w : World St) :
  (exists rest : list Call,
      calls (snd (literal (PyExpr addr) w)) =
        calls w ++ call_pa_scalar (PyExpr addr) :: rest) /\
  (forall e : PyExn,
      fst (pa_scalar (PyExpr addr) (engine_state w)) = Raised e ->
      fst (literal (PyExpr addr) w) = Raised e /\
      calls (snd (literal (PyExpr addr) w)) =
        calls w ++ [call_pa_scalar (PyExpr addr)]).
Proof.
  assert (Hv : isinstance (PyExpr addr) pa_Scalar = false) by reflexivity.
  split.
  - rewrite literal_calls, Hv. eexists. reflexivity.
  - intros e He. rewrite literal_calls, Hv, He.
    split; [|reflexivity].
    rewrite literal_coerce_path, invoke_unfold by assumption.
    destruct (pa_scalar (PyExpr addr) (engine_state w)) as [[s|e'] st];
      cbn [fst] in *; [discriminate He | exact He].
Qed.

Lemma literal_of_expression_is_coerced_witness :
  fst (pa_scalar (PyExpr 0) (engine_state fresh_world)) = Raised UnsupportedValueType /\
  fst (literal (PyExpr 0) fresh_world) = Raised UnsupportedValueType /\
  calls (snd (literal (PyExpr 0) fresh_world)) =
    calls fresh_world ++ [call_pa_scalar (PyExpr 0)].
Proof.
  split; [reflexivity|].
  exact (proj2 (literal_of_expression_is_coerced 0 fresh_world)
           UnsupportedValueType eq_refl).
Defined.

(** X6: the two functions change the engine only through the calls they
    make.  An invariant of the engine's state that each of [pa.scalar],
    [Expression.literal] and [Expression.column] preserves is preserved by
    [literal] and by [column], whether they return or raise. *)
Theorem shim_preserves_engine_invariant {St : Type} `{Engine St}
    (I : St -> Prop) :
  (forall (v : Value) (st : St), I st -> I (snd (pa_scalar v st))) ->
  (forall (v : Value) (st : St), I st -> I (snd (Expression_literal v st))) ->
  (forall (v : Value) (st : St), I st -> I (snd (Expression_column v st))) ->
  forall (value : Value) (w : World St),
    I (engine_state w) ->
    I (engine_state (snd (literal value w))) /\
    I (engine_state (snd (column value w))).
Proof.
  intros Hscalar Hliteral Hcolumn value w Hw. split.
  - destruct (isinstance value pa_Scalar) eqn:Hv.
    + rewrite literal_scalar_path, invoke_unfold by assumption.
      cbn [snd engine_state]. apply Hliteral, Hw.
    + rewrite literal_coerce_path, invoke_unfold by assumption.
      specialize (Hscalar value _ Hw).
      destruct (pa_scalar value (engine_state w)) as [[s|e] st];
        cbn [fst snd] in *.
      * rewrite invoke_unfold. cbn [snd engine_state]. apply Hliteral, Hscalar.
      * exact Hscalar.
  - unfold column. rewrite invoke_unfold. cbn [snd engine_state].
    apply Hcolumn, Hw.
Qed.

Lemma shim_preserves_engine_invariant_witness :
  [ColumnLeaf "x"] !! 0%nat = Some (ColumnLeaf "x") /\
  engine_state (snd (literal (PyStr "y")
    {| engine_state := [ColumnLeaf "x"]; calls := [] |})) !! 0%nat
    = Some (ColumnLeaf "x") /\
  engine_state (snd (column (PyStr "y")
    {| engine_state := [ColumnLeaf "x"]; calls := [] |})) !! 0%nat
    = Some (ColumnLeaf "x").
Proof.
  split; [reflexivity|].
  apply (shim_preserves_engine_invariant
           (fun st : Store => st !! 0%nat = Some (ColumnLeaf "x"))).
  - intros v st Hst. cbn [pa_scalar spec_engine].
    rewrite spec_pa_scalar_store. exact Hst.
  - intros v st Hst. cbn [Expression_literal spec_engine].
    unfold spec_Expression_literal, alloc.
    destruct (isinstance v pa_Scalar); cbn [snd]; [|exact Hst].
    apply lookup_app_l_Some. exact Hst.
  - intros v st Hst. cbn [Expression_column spec_engine].
    unfold spec_Expression_column, alloc.
    destruct v; cbn [snd]; try exact Hst.
    apply lookup_app_l_Some. exact Hst.
  - reflexivity.
Defined.
